(** * grpcrunserver: the management command that starts the gRPC server

    A shallow embedding of
    [django_grpc_framework/management/commands/grpcrunserver.py].

    The command is glue code: it calls the gRPC runtime, Django's
    autoreloader and the system-check framework in a fixed order and
    reacts to the exceptions they raise.  The embedding keeps exactly that:
    - every call into a library is an event appended to a trace, and the
      library's reply (a value or a raised exception) is given by an
      environment that sees the trace so far;
    - Python exceptions and [os._exit] are outcomes of a computation;
      [try ... except] inspects the outcome of its body;
    - [async def] bodies are computations of the same monad, [await] is
      sequencing, and [asyncio.run] drives a coroutine to its outcome;
    - writing to [self.stdout] and [self.stderr] always succeeds and is an
      event of its own;
    - the autoreloader receives the function it is to run, as in the
      source; what it does with it is Django's and stays a parameter;
    - [add_arguments] is the list of declarations it makes, read by a model
      of the part of [argparse] that these declarations use. *)

From Stdlib Require Import ZArith Ascii DecimalString DecimalZ DecimalPos.
From stdpp Require Import base option strings list gmap.

Local Open Scope Z_scope.

(** ** Python values *)

(** The values that travel through [options] and the command's attributes. *)
Inductive value :=
| VNone
| VBool (b : bool)
| VInt (n : Z)
| VStr (s : string).

Global Instance value_eq_dec : EqDecision value.
Proof. solve_decision. Defined.

(** Truth value of an object, as [if x:] computes it. *)
Definition truthy (v : value) : bool :=
  match v with
  | VNone => false
  | VBool b => b
  | VInt n => negb (Z.eqb n 0%Z)
  | VStr s => negb (String.eqb s "")
  end.

(** [str(x)], which is also what an f-string or [%s] puts in the text. *)
Definition str (v : value) : string :=
  match v with
  | VNone => "None"
  | VBool true => "True"
  | VBool false => "False"
  | VInt n => NilZero.string_of_int (Z.to_int n)
  | VStr s => s
  end.


(** The line feed of ["\n"]. *)
Definition LF : string := String "010"%char EmptyString.

(** [repr] of a string that has no quote, backslash or control character
    in it, such as a dotted module path. *)
Definition repr (s : string) : string := "'" +:+ s +:+ "'".

(** ** Exceptions and outcomes *)

Inductive exn :=
| OSError (errno : option Z) (text : string)
| CancelledError
| KeyboardInterrupt
| SystemExit (code : Z)
| KeyError (key : string)
| Exception (name : string).

(** How a computation ends: it returns, it raises, or the process is gone
    ([os._exit], which no handler sees). *)
Inductive outcome (A : Type) :=
| Returned (a : A)
| Raised (e : exn)
| ProcessExit (status : Z).
Arguments Returned {A} a.
Arguments Raised {A} e.
Arguments ProcessExit {A} status.

(** ** Library calls and the trace *)

(** The server object that [grpc.aio.server] hands out. *)
Inductive Server := ServerObject (id : nat).

Global Instance Server_eq_dec : EqDecision Server.
Proof. solve_decision. Defined.

(** The calls the command makes into gRPC, Django and the standard
    library, with the arguments it passes. [ROOT_HANDLERS_HOOK] is the
    function the project configured; the command only calls it. *)
Inductive call :=
| grpc_aio_server (options : option (list (string * string)))
                  (interceptors : option (list string))
| ROOT_HANDLERS_HOOK (server : Server)
| add_insecure_port (server : Server) (address : value)
| start (server : Server)
| wait_for_termination (server : Server)
| stop (server : Server) (grace : option Z)
| raise_last_exception
| check (display_num_errors : bool)
| check_migrations
| datetime_now_strftime (format : string)
| get_version.

Global Instance call_eq_dec : EqDecision call.
Proof. solve_decision. Defined.

(** The type of what a call gives back when it returns. *)
Definition reply_type (c : call) : Type :=
  match c with
  | grpc_aio_server _ _ => Server
  | datetime_now_strftime _ => string
  | get_version => string
  | _ => unit
  end.

Inductive reply (A : Type) :=
| Returns (a : A)
| Raises (e : exn).
Arguments Returns {A} a.
Arguments Raises {A} e.

Definition outcome_of_reply {A} (r : reply A) : outcome A :=
  match r with
  | Returns a => Returned a
  | Raises e => Raised e
  end.

(** What the process did, oldest first. *)
Inductive event :=
| Called (c : call)
| stdout_write (s : string)
| stderr_write (s : string).

Global Instance event_eq_dec : EqDecision event.
Proof. solve_decision. Defined.

(** The world outside the command: it answers each call, knowing what has
    happened so far. *)
Definition Env : Type := list event -> forall c : call, reply (reply_type c).

(** ** The monad of command code *)

Definition M (A : Type) : Type := list event -> outcome A * list event.

Global Instance M_ret : MRet M := fun A a tr => (Returned a, tr).

Global Instance M_bind : MBind M := fun A B k m tr =>
  match m tr with
  | (Returned a, tr') => k a tr'
  | (Raised e, tr') => (Raised e, tr')
  | (ProcessExit n, tr') => (ProcessExit n, tr')
  end.

Definition raise {A} (e : exn) : M A := fun tr => (Raised e, tr).

(** [os._exit(n)]: the process ends here. *)
Definition os__exit {A} (n : Z) : M A := fun tr => (ProcessExit n, tr).

(** [sys.exit(n)] raises [SystemExit]. *)
Definition sys_exit {A} (n : Z) : M A := raise (SystemExit n).

(** [self.stdout.write(s)] and [self.stderr.write(s)]. *)
Definition write_stdout (s : string) : M unit :=
  fun tr => (Returned tt, tr ++ [stdout_write s]).
Definition write_stderr (s : string) : M unit :=
  fun tr => (Returned tt, tr ++ [stderr_write s]).

(** [try: body / except ...: handler]. [handlers e] is the first clause
    that matches [e], if there is one. *)
Definition try_except {A} (body : M A) (handlers : exn -> option (M A)) : M A :=
  fun tr =>
    match body tr with
    | (Raised e, tr') =>
        match handlers e with
        | Some h => h tr'
        | None => (Raised e, tr')
        end
    | r => r
    end.

(** [asyncio.run(coro)]: run the coroutine until it is done and pass on
    what it returned or raised. *)
Definition asyncio_run {A} (coro : M A) : M A := coro.

(** [d[key]] on a dict with string keys. *)
Definition getitem (d : gmap string value) (key : string) : M value :=
  match d !! key with
  | Some v => mret v
  | None => raise (KeyError key)
  end.

(** ** What the command is given *)

(** [django_grpc_framework.settings.grpc_settings], as far as the command
    reads it. *)
Record GrpcSettings := {
  SERVER_OPTIONS : option (list (string * string));
  SERVER_INTERCEPTORS : option (list string)
}.

(** The constants of the [errno] module the command names. *)
Record Errno := {
  EACCES : Z;
  EADDRINUSE : Z;
  EADDRNOTAVAIL : Z
}.

(** [django.utils.autoreload]: which entry point this Django has, and the
    entry points themselves, which receive the function to run. *)
Record Autoreload := {
  has_run_with_reloader : bool;
  run_with_reloader :
    (list value -> gmap string value -> M unit) ->
    list value -> gmap string value -> M unit;
  main :
    (list value -> gmap string value -> M unit) ->
    option (list value) -> gmap string value -> M unit
}.

(** The attributes [handle] sets on the command object. *)
Record Command := {
  address : value;
  development_mode : value;
  max_workers : value
}.

Definition set_address (v : value) (self : Command) : Command :=
  {| address := v;
     development_mode := development_mode self;
     max_workers := max_workers self |}.
Definition set_development_mode (v : value) (self : Command) : Command :=
  {| address := address self;
     development_mode := v;
     max_workers := max_workers self |}.
Definition set_max_workers (v : value) (self : Command) : Command :=
  {| address := address self;
     development_mode := development_mode self;
     max_workers := v |}.

(** ** The command *)

Section Command.

Variable env : Env.
Variable grpc_settings : GrpcSettings.
Variable errno : Errno.
Variable autoreload : Autoreload.
(** [sys.platform] and [settings.SETTINGS_MODULE]. *)
Variable sys_platform : string.
Variable SETTINGS_MODULE : string.

(** A library call: the environment answers it, and the call is on
    record whether it returned or raised. *)
Definition lib (c : call) : M (reply_type c) :=
  fun tr => (outcome_of_reply (env tr c), tr ++ [Called c]).

Definition _serve (self : Command) : M unit :=
  server ← lib (grpc_aio_server (SERVER_OPTIONS grpc_settings)
                                (SERVER_INTERCEPTORS grpc_settings));
  lib (ROOT_HANDLERS_HOOK server);;
  lib (add_insecure_port server (address self));;
  write_stdout "gRPC server started and listening.";;
  lib (start server);;
  try_except
    (lib (wait_for_termination server))
    (fun e =>
       match e with
       | CancelledError =>
           Some (write_stdout "Shutting down gRPC server...";;
                 lib (stop server None))
       | _ => None
       end).

(** The dict literal of [inner_run]; a later key replaces an equal
    earlier one. *)
Definition ERRORS : gmap Z string :=
  <[EADDRNOTAVAIL errno := "That IP address can't be assigned to."]>
    (<[EADDRINUSE errno := "That port is already in use."]>
       (<[EACCES errno := "You don't have permission to access that port."]>
          ∅)).

(** [ERRORS.get(e.errno, str(e))]; an [OSError] without an errno has
    [e.errno is None], which is no key of [ERRORS]. *)
Definition error_text (e_errno : option Z) (e_str : string) : string :=
  default e_str (e_errno ≫= fun n => ERRORS !! n).

Definition inner_run (self : Command)
    (args : list value) (options : gmap string value) : M unit :=
  lib raise_last_exception;;
  write_stdout ("Performing system checks..." +:+ LF +:+ LF);;
  lib (check true);;
  lib check_migrations;;
  now ← lib (datetime_now_strftime "%B %d, %Y - %X");
  write_stdout now;;
  let quit_command :=
    if String.eqb sys_platform "win32" then "CTRL-BREAK" else "CONTROL-C" in
  version ← lib get_version;
  write_stdout
    ("Django version " +:+ version +:+ ", using settings "
       +:+ repr SETTINGS_MODULE +:+ LF
       +:+ "Starting development gRPC server at " +:+ str (address self) +:+ LF
       +:+ "Quit the server with " +:+ quit_command +:+ "." +:+ LF);;
  try_except
    (asyncio_run (_serve self))
    (fun e =>
       match e with
       | OSError e_errno e_str =>
           Some (write_stderr ("Error: " +:+ error_text e_errno e_str);;
                 os__exit 1)
       | KeyboardInterrupt => Some (sys_exit 0)
       | _ => None
       end).

Definition run (self : Command) (options : gmap string value) : M unit :=
  if truthy (development_mode self) then
    if has_run_with_reloader autoreload then
      run_with_reloader autoreload (inner_run self) [] options
    else
      main autoreload (inner_run self) None options
  else
    write_stdout ("Starting gRPC server at " +:+ str (address self) +:+ LF);;
    _serve self.

Definition handle (self : Command)
    (args : list value) (options : gmap string value) : M unit :=
  v ← getitem options "address";
  let self := set_address v self in
  v ← getitem options "development_mode";
  let self := set_development_mode v self in
  v ← getitem options "max_workers";
  let self := set_max_workers v self in
  asyncio_run (run self options).

End Command.

(** ** The command line

    [add_arguments] declares three arguments on the parser it is given.
    A parser is the list of its declarations, in the order they were
    added. *)

Inductive Action := store | store_true.

Inductive ArgType := type_int.

Record Argument := {
  arg_name : string;
  arg_nargs : option string;
  arg_type : option ArgType;
  arg_default : option value;
  arg_action : Action;
  arg_dest : option string;
  arg_help : string
}.

Definition add_argument (parser : list Argument) (a : Argument) : list Argument :=
  parser ++ [a].

Definition add_arguments (parser : list Argument) : list Argument :=
  let parser := add_argument parser
    {| arg_name := "address";
       arg_nargs := Some "?";
       arg_type := None;
       arg_default := Some (VStr "[::]:50051");
       arg_action := store;
       arg_dest := None;
       arg_help := "Optional address for which to open a port." |} in
  let parser := add_argument parser
    {| arg_name := "--max-workers";
       arg_nargs := None;
       arg_type := Some type_int;
       arg_default := Some (VInt 10);
       arg_action := store;
       arg_dest := Some "max_workers";
       arg_help := "Number of maximum worker threads." |} in
  add_argument parser
    {| arg_name := "--dev";
       arg_nargs := None;
       arg_type := None;
       arg_default := None;
       arg_action := store_true;
       arg_dest := Some "development_mode";
       arg_help := "Run the server in development mode. This tells Django to use "
                     +:+ "the auto-reloader and run checks." |}.

(** *** How argparse reads a command line

    The part of [argparse] that these declarations exercise: options are
    matched by their full name and take their value from the next token,
    positionals are filled from left to right. Abbreviated options,
    [--opt=value], [--] and the options Django adds itself are outside of
    it and rejected here. [None] is a usage error. *)











(** ** Traces to compare against *)

(** Everything [_serve] can put on the trace, in source order, for the
    server object [server]. *)
Definition serve_script (grpc_settings : GrpcSettings) (self : Command)
    (server : Server) : list event :=
  [ Called (grpc_aio_server (SERVER_OPTIONS grpc_settings)
                            (SERVER_INTERCEPTORS grpc_settings));
    Called (ROOT_HANDLERS_HOOK server);
    Called (add_insecure_port server (address self));
    stdout_write "gRPC server started and listening.";
    Called (start server);
    Called (wait_for_termination server);
    stdout_write "Shutting down gRPC server...";
    Called (stop server None) ].

(** The server was built, the hook ran, the port was added and the server
    started, all without an exception, from the trace [tr] on. *)
Definition serving (env : Env) (grpc_settings : GrpcSettings) (self : Command)
    (tr : list event) (server : Server) : Prop :=
  let script := serve_script grpc_settings self server in
  env tr (grpc_aio_server (SERVER_OPTIONS grpc_settings)
                          (SERVER_INTERCEPTORS grpc_settings)) = Returns server
  /\ env (tr ++ take 1 script) (ROOT_HANDLERS_HOOK server) = Returns tt
  /\ env (tr ++ take 2 script) (add_insecure_port server (address self)) = Returns tt
  /\ env (tr ++ take 4 script) (start server) = Returns tt.

(** What [inner_run] does before it touches the server: the validation
    steps first, then the banner. *)
Definition validation_script : list event :=
  [ Called raise_last_exception;
    stdout_write ("Performing system checks..." +:+ LF +:+ LF);
    Called (check true);
    Called check_migrations ].

Definition banner_script (sys_platform SETTINGS_MODULE : string)
    (self : Command) (now version : string) : list event :=
  [ Called (datetime_now_strftime "%B %d, %Y - %X");
    stdout_write now;
    Called get_version;
    stdout_write
      ("Django version " +:+ version +:+ ", using settings "
         +:+ repr SETTINGS_MODULE +:+ LF
         +:+ "Starting development gRPC server at " +:+ str (address self) +:+ LF
         +:+ "Quit the server with "
         +:+ (if String.eqb sys_platform "win32" then "CTRL-BREAK" else "CONTROL-C")
         +:+ "." +:+ LF) ].

Definition startup_script (sys_platform SETTINGS_MODULE : string)
    (self : Command) (now version : string) : list event :=
  validation_script ++ banner_script sys_platform SETTINGS_MODULE self now version.

(** Every step of [inner_run] before the server is touched returned. *)
Definition started_up (env : Env) (tr : list event) (now version : string) : Prop :=
  env tr raise_last_exception = Returns tt
  /\ env (tr ++ take 2 validation_script) (check true) = Returns tt
  /\ env (tr ++ take 3 validation_script) check_migrations = Returns tt
  /\ env (tr ++ validation_script) (datetime_now_strftime "%B %d, %Y - %X") = Returns now
  /\ env (tr ++ validation_script
             ++ [Called (datetime_now_strftime "%B %d, %Y - %X"); stdout_write now])
         get_version = Returns version.

Definition is_stop (ev : event) : bool :=
  match ev with
  | Called (stop _ _) => true
  | _ => false
  end.

Definition is_stderr (ev : event) : bool :=
  match ev with
  | stderr_write _ => true
  | _ => false
  end.

Definition is_validation (ev : event) : bool :=
  match ev with
  | Called raise_last_exception => true
  | Called (check _) => true
  | Called check_migrations => true
  | _ => false
  end.

(** The reloader uses the keyword arguments it is given only to pass them
    on to the function it runs. *)
Definition passes_kwargs_on (autoreload : Autoreload) : Prop :=
  forall (f g : list value -> gmap string value -> M unit)
         (options options' : gmap string value),
    (forall args k k' tr, f args k tr = g args k' tr) ->
    (forall args tr,
        run_with_reloader autoreload f args options tr
        = run_with_reloader autoreload g args options' tr)
    /\ (forall args tr,
        main autoreload f args options tr = main autoreload g args options' tr).

(** ** Sample surroundings *)

(** The codes of [errno] on Linux. *)
Definition linux_errno : Errno :=
  {| EACCES := 13; EADDRINUSE := 98; EADDRNOTAVAIL := 99 |}.

Definition no_settings : GrpcSettings :=
  {| SERVER_OPTIONS := None; SERVER_INTERCEPTORS := None |}.

(** An environment in which every call returns, except that adding the
    port answers [port] and waiting for termination answers [wait]. *)
Definition env_with (port wait : reply unit) : Env :=
  fun _ c =>
    match c return reply (reply_type c) with
    | grpc_aio_server _ _ => Returns (ServerObject 0)
    | add_insecure_port _ _ => port
    | wait_for_termination _ => wait
    | datetime_now_strftime _ => Returns "January 01, 2024 - 00:00:00"
    | get_version => Returns "4.2"
    | _ => Returns tt
    end.

(** A reloader that runs the function once and is done. *)
Definition run_once : Autoreload :=
  {| has_run_with_reloader := true;
     run_with_reloader := fun f args kwargs => f args kwargs;
     main := fun f args kwargs => f (default [] args) kwargs |}.

(** A reloader that starts the function again each time it ends, [n]
    restarts in all; nothing restarts a process that has exited. *)
Fixpoint restarting (n : nat) (f : M unit) : M unit :=
  fun tr =>
    match f tr with
    | (ProcessExit status, tr') => (ProcessExit status, tr')
    | (r, tr') =>
        match n with
        | O => (r, tr')
        | S n' => restarting n' f tr'
        end
    end.

Definition run_restarting (n : nat) : Autoreload :=
  {| has_run_with_reloader := true;
     run_with_reloader := fun f args kwargs => restarting n (f args kwargs);
     main := fun f args kwargs => restarting n (f (default [] args) kwargs) |}.

(** The options of a command line without arguments. *)
Definition default_options : gmap string value :=
  <["address" := VStr "[::]:50051"]>
    (<["max_workers" := VInt 10]>
       (<["development_mode" := VBool false]> ∅)).

Definition dev_options : gmap string value :=
  <["development_mode" := VBool true]> default_options.

(** A command object on which [handle] has not run yet. *)
Definition fresh : Command :=
  {| address := VNone; development_mode := VNone; max_workers := VNone |}.

Definition dev_command : Command :=
  {| address := VStr "[::]:50051";
     development_mode := VBool true;
     max_workers := VInt 10 |}.

Definition plain_command : Command :=
  {| address := VStr "[::]:50051";
     development_mode := VBool false;
     max_workers := VInt 10 |}.

(** ** Recognising events *)


Definition is_port (ev : event) : bool :=
  match ev with
  | Called (add_insecure_port _ _) => true
  | _ => false
  end.






(** ** Command lines of this command *)

(** The positional argument of the command, as [add_arguments] declares it. *)
Definition address_argument : Argument :=
  {| arg_name := "address";
     arg_nargs := Some "?";
     arg_type := None;
     arg_default := Some (VStr "[::]:50051");
     arg_action := store;
     arg_dest := None;
     arg_help := "Optional address for which to open a port." |}.

(** The two options, as [add_arguments] declares them. *)
Definition max_workers_argument : Argument :=
  {| arg_name := "--max-workers";
     arg_nargs := None;
     arg_type := Some type_int;
     arg_default := Some (VInt 10);
     arg_action := store;
     arg_dest := Some "max_workers";
     arg_help := "Number of maximum worker threads." |}.

Definition dev_argument : Argument :=
  {| arg_name := "--dev";
     arg_nargs := None;
     arg_type := None;
     arg_default := None;
     arg_action := store_true;
     arg_dest := Some "development_mode";
     arg_help := "Run the server in development mode. This tells Django to use "
                   +:+ "the auto-reloader and run checks." |}.



(** ** Traces only grow *)

(** A computation that leaves what was on the trace in place and adds to
    its end. *)
Definition grows {A} (m : M A) : Prop :=
  forall tr, exists added, snd (m tr) = tr ++ added.


(** ** More sample surroundings *)


(** * Properties *)

(** ** Stepping through command code *)

Ltac unfold_monad :=
  cbv [lib mbind M_bind mret M_ret write_stdout write_stderr try_except
       asyncio_run raise os__exit sys_exit getitem].

(** Bring a trace to the form [tr ++ [e1; ...; en]]. *)
Ltac flatten_trace := rewrite <- ?List.app_assoc; cbn [app].

(** The routine made [n] steps of its script and stopped. *)
Ltac stops_after n :=
  solve [exists n; flatten_trace; cbn; repeat split; first [lia | reflexivity]].

(** Case analysis on the next reply of the environment. *)
Ltac next_reply :=
  match goal with
  | |- context [outcome_of_reply (?env ?t ?c)] =>
      let E := fresh "E" in destruct (env t c) eqn:E; cbn [outcome_of_reply fst snd]
  end.



Lemma bind_returned {A B} (m : M A) (k : A -> M B) (a : A) (tr tr' : list event) :
  m tr = (Returned a, tr') -> (m ≫= k) tr = k a tr'.
Proof. intros H. unfold mbind, M_bind. now rewrite H. Qed.


(** ** Command code only adds to the trace *)

Create HintDb grows.

Lemma grows_ret {A} (a : A) : grows (mret a).
Proof. intros tr. exists []. cbn. now rewrite app_nil_r. Qed.

Lemma grows_raise {A} (e : exn) : grows (@raise A e).
Proof. intros tr. exists []. cbn. now rewrite app_nil_r. Qed.

Lemma grows_sys_exit {A} (n : Z) : grows (@sys_exit A n).
Proof. apply grows_raise. Qed.

Lemma grows_os__exit {A} (n : Z) : grows (@os__exit A n).
Proof. intros tr. exists []. cbn. now rewrite app_nil_r. Qed.

Lemma grows_lib (env : Env) (c : call) : grows (lib env c).
Proof. intros tr. now exists [Called c]. Qed.

Lemma grows_write_stdout (s : string) : grows (write_stdout s).
Proof. intros tr. now exists [stdout_write s]. Qed.

Lemma grows_write_stderr (s : string) : grows (write_stderr s).
Proof. intros tr. now exists [stderr_write s]. Qed.

Lemma grows_bind {A B} (m : M A) (k : A -> M B) :
  grows m -> (forall a, grows (k a)) -> grows (m ≫= k).
Proof.
  intros Hm Hk tr. destruct (Hm tr) as [added Hadded].
  unfold mbind, M_bind. destruct (m tr) as [[a|e|status] tr']; cbn in Hadded; subst tr'.
  - destruct (Hk a (tr ++ added)) as [added' Hadded'].
    exists (added ++ added'). now rewrite Hadded', List.app_assoc.
  - now exists added.
  - now exists added.
Qed.

Lemma grows_try_except {A} (body : M A) (handlers : exn -> option (M A)) :
  grows body ->
  (forall e h, handlers e = Some h -> grows h) ->
  grows (try_except body handlers).
Proof.
  intros Hbody Hhandlers tr. destruct (Hbody tr) as [added Hadded].
  unfold try_except. destruct (body tr) as [[a|e|status] tr']; cbn in Hadded; subst tr'.
  - now exists added.
  - destruct (handlers e) as [h|] eqn:Hh; [|now exists added].
    destruct (Hhandlers e h Hh (tr ++ added)) as [added' Hadded'].
    exists (added ++ added'). now rewrite Hadded', List.app_assoc.
  - now exists added.
Qed.

Lemma grows_asyncio_run {A} (coro : M A) : grows coro -> grows (asyncio_run coro).
Proof. exact (fun H => H). Qed.

#[global] Hint Resolve grows_ret grows_raise grows_sys_exit grows_os__exit grows_lib
  grows_write_stdout grows_write_stderr grows_asyncio_run : grows.

(** Take a computation apart along its binds and handlers. *)
Ltac prove_grows :=
  repeat first
    [ solve [auto with grows]
    | match goal with |- grows (lib ?env ?c) => exact (grows_lib env c) end
    | apply grows_bind; [|intros ?]
    | apply grows_try_except;
      [|let e := fresh "e" in let h := fresh "h" in let H := fresh "H" in
        intros e h H; destruct e; inversion H; subst; clear H] ].

Lemma grows_serve (env : Env) (grpc_settings : GrpcSettings) (self : Command) :
  grows (_serve env grpc_settings self).
Proof. unfold _serve. prove_grows. Qed.

#[global] Hint Resolve grows_serve : grows.

Lemma grows_inner_run env grpc_settings errno sys_platform SETTINGS_MODULE self
    args options :
  grows (inner_run env grpc_settings errno sys_platform SETTINGS_MODULE self
           args options).
Proof. unfold inner_run. prove_grows. Qed.

(** ** The serve routine *)

Section Serve.

Context (env : Env) (grpc_settings : GrpcSettings) (self : Command).

Local Abbreviation script := (serve_script grpc_settings self).

(** Once the server is serving, the routine is decided by how the wait
    for termination ends. *)
Lemma serve_from_wait (tr : list event) (server : Server) :
  serving env grpc_settings self tr server ->
  _serve env grpc_settings self tr
  = match env (tr ++ take 5 (script server)) (wait_for_termination server) with
    | Returns _ => (Returned tt, tr ++ take 6 (script server))
    | Raises CancelledError =>
        (outcome_of_reply (env (tr ++ take 7 (script server)) (stop server None)),
         tr ++ script server)
    | Raises e => (Raised e, tr ++ take 6 (script server))
    end.
Proof.
  intros (Hnew & Hhook & Hport & Hstart). cbn in Hhook, Hport, Hstart.
  cbn [take serve_script].
  unfold _serve. unfold_monad.
  rewrite Hnew. cbn [outcome_of_reply]. flatten_trace.
  rewrite Hhook. cbn [outcome_of_reply]. flatten_trace.
  rewrite Hport. cbn [outcome_of_reply]. flatten_trace.
  rewrite Hstart. cbn [outcome_of_reply]. flatten_trace.
  destruct (env _ (wait_for_termination server)) as [[]|e];
    cbn [outcome_of_reply]; [reflexivity|].
  destruct e; try reflexivity.
  flatten_trace. reflexivity.
Qed.

(** Whatever the environment answers, the trace of the routine grows by
    an initial part of the script. *)
Lemma serve_trace (tr : list event) :
  exists (server : Server) (n : nat),
    (1 <= n <= 8)%nat
    /\ snd (_serve env grpc_settings self tr) = tr ++ take n (script server)
    /\ match fst (_serve env grpc_settings self tr) with
       | Returned _ => (6 <= n)%nat
       | _ => True
       end.
Proof.
  unfold _serve. unfold_monad.
  destruct (env tr (grpc_aio_server _ _)) as [server|e] eqn:Hnew;
    cbn [outcome_of_reply].
  2:{ exists (ServerObject 0). stops_after 1%nat. }
  change (reply_type (grpc_aio_server (SERVER_OPTIONS grpc_settings)
    (SERVER_INTERCEPTORS grpc_settings))) with Server in server.
  exists server.
  next_reply; [|stops_after 2%nat].
  next_reply; [|stops_after 3%nat].
  next_reply; [|stops_after 5%nat].
  next_reply; [stops_after 6%nat|].
  destruct e; try stops_after 6%nat.
  exists 8%nat. flatten_trace. cbn [take serve_script snd fst].
  split; [lia|]. split; [reflexivity|].
  destruct (outcome_of_reply _); auto with lia.
Qed.

End Serve.



(** C4. A cancellation raised by the wait for termination is caught: the
    routine writes "Shutting down gRPC server...", calls [stop] on the
    server with [grace=None], and ends the way that call ends; the
    cancellation is not raised again. *)
Theorem cancellation_stops_server (env : Env) (grpc_settings : GrpcSettings)
    (self : Command) (tr : list event) (server : Server) :
  let script := serve_script grpc_settings self server in
  serving env grpc_settings self tr server ->
  env (tr ++ take 5 script) (wait_for_termination server) = Raises CancelledError ->
  _serve env grpc_settings self tr
  = (outcome_of_reply (env (tr ++ take 7 script) (stop server None)),
     tr ++ take 6 script
        ++ [stdout_write "Shutting down gRPC server..."; Called (stop server None)]).
Proof.
  intros script Hserving Hwait.
  rewrite (serve_from_wait env grpc_settings self tr server Hserving).
  fold script. rewrite Hwait. reflexivity.
Qed.

Lemma cancellation_stops_server_witness :
  _serve (env_with (Returns tt) (Raises CancelledError)) no_settings plain_command []
  = (Returned tt,
     [ Called (grpc_aio_server None None);
       Called (ROOT_HANDLERS_HOOK (ServerObject 0));
       Called (add_insecure_port (ServerObject 0) (VStr "[::]:50051"));
       stdout_write "gRPC server started and listening.";
       Called (start (ServerObject 0));
       Called (wait_for_termination (ServerObject 0));
       stdout_write "Shutting down gRPC server...";
       Called (stop (ServerObject 0) None) ]).
Proof.
  apply (cancellation_stops_server
           (env_with (Returns tt) (Raises CancelledError)) no_settings
           plain_command [] (ServerObject 0)).
  - repeat split; reflexivity.
  - reflexivity.
Defined.

(** ** The development-mode run *)

Section InnerRun.

Context (env : Env) (grpc_settings : GrpcSettings) (errno : Errno)
        (sys_platform SETTINGS_MODULE : string) (self : Command).

Local Abbreviation inner_run' :=
  (inner_run env grpc_settings errno sys_platform SETTINGS_MODULE self).
Local Abbreviation startup :=
  (startup_script sys_platform SETTINGS_MODULE self).

(** After a start-up without exception, [inner_run] is decided by how
    the serve routine ends. *)
Lemma inner_run_from_serve (args : list value) (options : gmap string value)
    (tr : list event) (now version : string) :
  started_up env tr now version ->
  inner_run' args options tr
  = match _serve env grpc_settings self (tr ++ startup now version) with
    | (Raised (OSError e_errno e_str), tr') =>
        (ProcessExit 1,
         tr' ++ [stderr_write ("Error: " +:+ error_text errno e_errno e_str)])
    | (Raised KeyboardInterrupt, tr') => (Raised (SystemExit 0), tr')
    | r => r
    end.
Proof.
  intros (Hlast & Hcheck & Hmig & Hnow & Hver).
  unfold validation_script in Hcheck, Hmig, Hnow, Hver.
  cbn [take app] in Hcheck, Hmig, Hnow, Hver.
  unfold inner_run.
  cbv [lib mbind M_bind mret M_ret write_stdout write_stderr try_except
       asyncio_run raise os__exit sys_exit].
  rewrite Hlast. cbn [outcome_of_reply]. flatten_trace.
  rewrite Hcheck. cbn [outcome_of_reply]. flatten_trace.
  rewrite Hmig. cbn [outcome_of_reply]. flatten_trace.
  rewrite Hnow. cbn [outcome_of_reply]. flatten_trace.
  rewrite Hver. cbn [outcome_of_reply]. flatten_trace.
  change (tr ++ startup now version) with
    (tr ++ validation_script
        ++ banner_script sys_platform SETTINGS_MODULE self now version).
  cbn [validation_script banner_script app].
  destruct (_serve env grpc_settings self _) as [[[]|e|status] tr']; try reflexivity.
  destruct e; reflexivity.
Qed.


End InnerRun.

(** ** The table of error messages *)

Section Errors.

Context (errno : Errno).

Lemma error_text_EADDRNOTAVAIL (text : string) :
  error_text errno (Some (EADDRNOTAVAIL errno)) text
  = "That IP address can't be assigned to.".
Proof. unfold error_text, ERRORS. cbn. now rewrite lookup_insert_eq. Qed.

Lemma error_text_EADDRINUSE (text : string) :
  EADDRINUSE errno <> EADDRNOTAVAIL errno ->
  error_text errno (Some (EADDRINUSE errno)) text = "That port is already in use.".
Proof.
  intros Hne. unfold error_text, ERRORS. cbn.
  rewrite lookup_insert_ne by congruence. now rewrite lookup_insert_eq.
Qed.

Lemma error_text_EACCES (text : string) :
  EACCES errno <> EADDRINUSE errno ->
  EACCES errno <> EADDRNOTAVAIL errno ->
  error_text errno (Some (EACCES errno)) text
  = "You don't have permission to access that port.".
Proof.
  intros Hne1 Hne2. unfold error_text, ERRORS. cbn.
  rewrite !lookup_insert_ne by congruence. now rewrite lookup_insert_eq.
Qed.

(** An errno that is no key of the table, or no errno at all, leaves the
    text of the exception. *)
Lemma error_text_other (e_errno : option Z) (text : string) :
  (forall n, e_errno = Some n ->
             n ∉ [EACCES errno; EADDRINUSE errno; EADDRNOTAVAIL errno]) ->
  error_text errno e_errno text = text.
Proof.
  intros Hother. destruct e_errno as [n|]; [|reflexivity].
  specialize (Hother n eq_refl).
  unfold error_text, ERRORS. cbn.
  rewrite !lookup_insert_ne, lookup_empty; [reflexivity|..];
    intros Heq; apply Hother; rewrite <- Heq; set_solver.
Qed.

Lemma error_text_known (code : Z) (message text : string) :
  NoDup [EACCES errno; EADDRINUSE errno; EADDRNOTAVAIL errno] ->
  (code, message) ∈
    [ (EACCES errno, "You don't have permission to access that port.");
      (EADDRINUSE errno, "That port is already in use.");
      (EADDRNOTAVAIL errno, "That IP address can't be assigned to.") ] ->
  error_text errno (Some code) text = message.
Proof.
  intros Hdistinct Hin.
  apply NoDup_cons in Hdistinct as [Hacces Hdistinct].
  apply NoDup_cons in Hdistinct as [Hinuse _].
  rewrite !elem_of_cons in Hin.
  destruct Hin as [[= -> ->]|[[= -> ->]|[[= -> ->]|Hin]]].
  - apply error_text_EACCES; intros Heq; apply Hacces; rewrite Heq; set_solver.
  - apply error_text_EADDRINUSE; intros Heq; apply Hinuse; rewrite Heq; set_solver.
  - apply error_text_EADDRNOTAVAIL.
  - now apply elem_of_nil in Hin.
Qed.

End Errors.

(** ** Failures of the server *)

(** C1, as the code has it. In development mode an [OSError] of the serve
    routine that carries EACCES, EADDRINUSE or EADDRNOTAVAIL is answered
    with "Error: " and the message of that code on stderr, and the process
    exits at once with status 1: nothing else follows on the trace. With
    development mode off the command has no handler: the [OSError] leaves
    [run] as it came, and nothing is written for it. *)
Theorem bind_failure_is_reported_in_development_mode
    (env : Env) (grpc_settings : GrpcSettings) (errno : Errno)
    (sys_platform SETTINGS_MODULE : string) (self : Command) :
  NoDup [EACCES errno; EADDRINUSE errno; EADDRNOTAVAIL errno] ->
  (forall args options tr now version code message text tr',
      (code, message) ∈
        [ (EACCES errno, "You don't have permission to access that port.");
          (EADDRINUSE errno, "That port is already in use.");
          (EADDRNOTAVAIL errno, "That IP address can't be assigned to.") ] ->
      started_up env tr now version ->
      _serve env grpc_settings self
             (tr ++ startup_script sys_platform SETTINGS_MODULE self now version)
      = (Raised (OSError (Some code) text), tr') ->
      inner_run env grpc_settings errno sys_platform SETTINGS_MODULE self
                args options tr
      = (ProcessExit 1, tr' ++ [stderr_write ("Error: " +:+ message)]))
  /\ (forall autoreload options tr e_errno text tr',
      truthy (development_mode self) = false ->
      _serve env grpc_settings self
             (tr ++ [stdout_write
                       ("Starting gRPC server at " +:+ str (address self) +:+ LF)])
      = (Raised (OSError e_errno text), tr') ->
      run env grpc_settings errno autoreload sys_platform SETTINGS_MODULE self
          options tr
      = (Raised (OSError e_errno text), tr')).
Proof.
  intros Hdistinct. split.
  - intros args options tr now version code message text tr' Hin Hup Hserve.
    rewrite (inner_run_from_serve _ _ _ _ _ _ args options tr now version Hup).
    rewrite Hserve. now rewrite (error_text_known errno code message text).
  - intros autoreload options tr e_errno text tr' Hplain Hserve.
    unfold run. rewrite Hplain.
    rewrite (bind_returned (write_stdout _) _ tt _ _ eq_refl).
    exact Hserve.
Qed.

Lemma bind_failure_is_reported_in_development_mode_witness :
  let env := env_with (Raises (OSError (Some 98) "Address already in use"))
                      (Returns tt) in
  inner_run env no_settings linux_errno "linux" "proj.settings" dev_command
            [] dev_options []
  = (ProcessExit 1,
     startup_script "linux" "proj.settings" dev_command
                    "January 01, 2024 - 00:00:00" "4.2"
       ++ take 3 (serve_script no_settings dev_command (ServerObject 0))
       ++ [stderr_write "Error: That port is already in use."])
  /\ run env no_settings linux_errno run_once "linux" "proj.settings" plain_command
         default_options []
     = (Raised (OSError (Some 98) "Address already in use"),
        stdout_write ("Starting gRPC server at [::]:50051" +:+ LF)
          :: take 3 (serve_script no_settings plain_command (ServerObject 0))).
Proof.
  intros env.
  assert (Hdistinct : NoDup [EACCES linux_errno; EADDRINUSE linux_errno;
                             EADDRNOTAVAIL linux_errno]).
  { compute_done. }
  destruct (bind_failure_is_reported_in_development_mode
              env no_settings linux_errno "linux" "proj.settings" dev_command
              Hdistinct) as [Hdev _].
  destruct (bind_failure_is_reported_in_development_mode
              env no_settings linux_errno "linux" "proj.settings" plain_command
              Hdistinct) as [_ Hplain].
  split.
  - apply (Hdev [] dev_options [] "January 01, 2024 - 00:00:00" "4.2"
                98 "That port is already in use." "Address already in use"
                (startup_script "linux" "proj.settings" dev_command
                    "January 01, 2024 - 00:00:00" "4.2"
                  ++ take 3 (serve_script no_settings dev_command (ServerObject 0)))).
    + compute_done.
    + repeat split; reflexivity.
    + reflexivity.
  - apply (Hplain run_once default_options [] (Some 98) "Address already in use").
    + reflexivity.
    + reflexivity.
Defined.

(** C1 as stated fails with development mode off: the port is in use, the
    [OSError] with EADDRINUSE leaves [handle], and the command has written
    nothing to stderr and made no exit call. *)
Lemma bind_failure_unreported_outside_development_mode :
  let r := handle (env_with (Raises (OSError (Some (EADDRINUSE linux_errno))
                                             "Address already in use"))
                            (Returns tt))
                  no_settings linux_errno run_once "linux" "proj.settings"
                  fresh [] default_options [] in
  fst r = Raised (OSError (Some (EADDRINUSE linux_errno)) "Address already in use")
  /\ existsb is_stderr (snd r) = false
  /\ existsb is_port (snd r) = true.
Proof. vm_compute. auto. Qed.

(** C9. In development mode an [OSError] of the serve routine whose errno
    is none of EACCES, EADDRINUSE and EADDRNOTAVAIL, or that has no errno,
    is answered with "Error: " and the text of the exception on stderr,
    and the process exits with status 1 as for the known codes. *)
Theorem unknown_oserror_is_reported_in_development_mode
    (env : Env) (grpc_settings : GrpcSettings) (errno : Errno)
    (sys_platform SETTINGS_MODULE : string) (self : Command)
    (args : list value) (options : gmap string value) (tr : list event)
    (now version : string) (e_errno : option Z) (text : string)
    (tr' : list event) :
  (forall n, e_errno = Some n ->
             n ∉ [EACCES errno; EADDRINUSE errno; EADDRNOTAVAIL errno]) ->
  started_up env tr now version ->
  _serve env grpc_settings self
         (tr ++ startup_script sys_platform SETTINGS_MODULE self now version)
  = (Raised (OSError e_errno text), tr') ->
  inner_run env grpc_settings errno sys_platform SETTINGS_MODULE self args options tr
  = (ProcessExit 1, tr' ++ [stderr_write ("Error: " +:+ text)]).
Proof.
  intros Hother Hup Hserve.
  rewrite (inner_run_from_serve _ _ _ _ _ _ args options tr now version Hup).
  rewrite Hserve. now rewrite (error_text_other errno e_errno text Hother).
Qed.

Lemma unknown_oserror_is_reported_in_development_mode_witness :
  inner_run (env_with (Raises (OSError (Some 22) "Invalid argument")) (Returns tt))
            no_settings linux_errno "linux" "proj.settings" dev_command
            [] dev_options []
  = (ProcessExit 1,
     startup_script "linux" "proj.settings" dev_command
                    "January 01, 2024 - 00:00:00" "4.2"
       ++ take 3 (serve_script no_settings dev_command (ServerObject 0))
       ++ [stderr_write "Error: Invalid argument"]).
Proof.
  apply (unknown_oserror_is_reported_in_development_mode
           (env_with (Raises (OSError (Some 22) "Invalid argument")) (Returns tt))
           no_settings linux_errno "linux" "proj.settings" dev_command
           [] dev_options [] "January 01, 2024 - 00:00:00" "4.2"
           (Some 22) "Invalid argument"
           (startup_script "linux" "proj.settings" dev_command
                    "January 01, 2024 - 00:00:00" "4.2"
             ++ take 3 (serve_script no_settings dev_command (ServerObject 0)))).
  - intros n [= <-]. compute_done.
  - repeat split; reflexivity.
  - reflexivity.
Defined.

(** ** Interrupts and cancellation *)




(** ** The two modes *)

Lemma serve_script_has_no_validation grpc_settings self server (n : nat) :
  existsb is_validation (take n (serve_script grpc_settings self server)) = false.
Proof. do 9 (destruct n as [|n]; [reflexivity|]). reflexivity. Qed.



(** C6. With development mode off [run] writes "Starting gRPC server at "
    and the address, then goes on as the serve routine: the autoreloader
    is not part of what it computes, and no system check, migration check
    or re-raise is among the events it adds. *)
Theorem plain_mode_serves_directly
    (env : Env) (grpc_settings : GrpcSettings) (errno : Errno)
    (autoreload : Autoreload) (sys_platform SETTINGS_MODULE : string)
    (self : Command) (options : gmap string value) (tr : list event) :
  let r := run env grpc_settings errno autoreload sys_platform SETTINGS_MODULE
               self options tr in
  let starting :=
    stdout_write ("Starting gRPC server at " +:+ str (address self) +:+ LF) in
  truthy (development_mode self) = false ->
  r = _serve env grpc_settings self (tr ++ [starting])
  /\ (exists (server : Server) (n : nat),
        (1 <= n <= 8)%nat
        /\ snd r = tr ++ starting :: take n (serve_script grpc_settings self server))
  /\ existsb is_validation (drop (length tr) (snd r)) = false.
Proof.
  intros r starting Hplain.
  assert (Hrun : r = _serve env grpc_settings self (tr ++ [starting])).
  { subst r. unfold run. rewrite Hplain.
    now rewrite (bind_returned (write_stdout _) _ tt _ _ eq_refl). }
  destruct (serve_trace env grpc_settings self (tr ++ [starting]))
    as (server & n & Hn & Htr & _).
  rewrite <- Hrun in Htr. rewrite <- List.app_assoc in Htr. cbn [app] in Htr.
  split; [exact Hrun|]. split.
  - exists server, n. split; [exact Hn|exact Htr].
  - rewrite Htr, drop_app_length. cbn [existsb is_validation starting].
    apply serve_script_has_no_validation.
Qed.

Lemma plain_mode_serves_directly_witness :
  let env := env_with (Returns tt) (Returns tt) in
  run env no_settings linux_errno run_once "linux" "proj.settings"
      plain_command default_options []
  = (Returned tt,
     stdout_write ("Starting gRPC server at [::]:50051" +:+ LF)
       :: take 6 (serve_script no_settings plain_command (ServerObject 0))).
Proof.
  intros env.
  exact (proj1 (plain_mode_serves_directly
                  env no_settings linux_errno run_once "linux" "proj.settings"
                  plain_command default_options [] eq_refl)).
Defined.

(** ** The worker count *)

Lemma run_once_passes_kwargs_on : passes_kwargs_on run_once.
Proof. intros f g options options' Hfg. split; intros args tr; apply Hfg. Qed.

Lemma restarting_ext (n : nat) (f g : M unit) :
  (forall tr, f tr = g tr) -> forall tr, restarting n f tr = restarting n g tr.
Proof.
  intros Hfg. induction n as [|n IH]; intros tr; cbn; rewrite Hfg.
  - reflexivity.
  - destruct (g tr) as [[[]|e|status] tr']; auto.
Qed.

Lemma run_restarting_passes_kwargs_on (n : nat) : passes_kwargs_on (run_restarting n).
Proof.
  intros f g options options' Hfg.
  split; intros args tr; cbn; apply restarting_ext; intros tr'; apply Hfg.
Qed.

(** The serve routine and the development-mode run read the address of the
    command object and nothing else of it. *)
Lemma serve_reads_address_only env grpc_settings (self self' : Command) :
  address self = address self' ->
  forall tr, _serve env grpc_settings self tr = _serve env grpc_settings self' tr.
Proof. intros Haddress tr. unfold _serve. now rewrite Haddress. Qed.

Lemma inner_run_reads_address_only env grpc_settings errno sys_platform
    SETTINGS_MODULE (self self' : Command) args args' options options' :
  address self = address self' ->
  forall tr,
    inner_run env grpc_settings errno sys_platform SETTINGS_MODULE self args options tr
    = inner_run env grpc_settings errno sys_platform SETTINGS_MODULE self'
                args' options' tr.
Proof. intros Haddress tr. unfold inner_run, _serve. now rewrite Haddress. Qed.

(** With the address and the mode fixed, [run] does not depend on the
    worker count, be it an attribute or an option. *)
Lemma run_ignores_max_workers env grpc_settings errno autoreload sys_platform
    SETTINGS_MODULE (self : Command) (v v' : value)
    (options options' : gmap string value) (tr : list event) :
  (truthy (development_mode self) = true -> passes_kwargs_on autoreload) ->
  run env grpc_settings errno autoreload sys_platform SETTINGS_MODULE
      (set_max_workers v self) options tr
  = run env grpc_settings errno autoreload sys_platform SETTINGS_MODULE
        (set_max_workers v' self) options' tr.
Proof.
  intros Hreloader. unfold run. cbn [set_max_workers development_mode address].
  destruct (truthy (development_mode self)) eqn:Hdev.
  - destruct (Hreloader eq_refl
                (inner_run env grpc_settings errno sys_platform SETTINGS_MODULE
                           (set_max_workers v self))
                (inner_run env grpc_settings errno sys_platform SETTINGS_MODULE
                           (set_max_workers v' self))
                options options') as [Hrun Hmain].
    { intros args k k' tr'. now apply inner_run_reads_address_only. }
    destruct (has_run_with_reloader autoreload); [apply Hrun|apply Hmain].
  - unfold mbind, M_bind, write_stdout.
    now apply serve_reads_address_only.
Qed.

(** C8. Two invocations whose options differ in the worker count alone
    end alike and leave the same trace: the same server is built from the
    same settings and the same calls are made. [handle] stores the worker
    count on the command object, and what runs afterwards never reads it.
    In development mode the options travel through the autoreloader, which
    is taken to pass them on untouched. *)
Theorem max_workers_has_no_influence
    (env : Env) (grpc_settings : GrpcSettings) (errno : Errno)
    (autoreload : Autoreload) (sys_platform SETTINGS_MODULE : string)
    (self : Command) (args : list value) (options : gmap string value)
    (v v' : value) (tr : list event) :
  let handle' :=
    handle env grpc_settings errno autoreload sys_platform SETTINGS_MODULE self args in
  let run' := run env grpc_settings errno autoreload sys_platform SETTINGS_MODULE in
  (forall d, options !! "development_mode" = Some d -> truthy d = true ->
             passes_kwargs_on autoreload) ->
  handle' (<["max_workers" := v]> options) tr
  = handle' (<["max_workers" := v']> options) tr
  /\ forall a d,
      options !! "address" = Some a ->
      options !! "development_mode" = Some d ->
      handle' (<["max_workers" := v]> options) tr
      = run' {| address := a; development_mode := d; max_workers := v |}
             (<["max_workers" := v]> options) tr.
Proof.
  intros handle' run' Hreloader. subst handle' run'.
  unfold handle, getitem.
  rewrite !(lookup_insert_ne options "max_workers" "address") by discriminate.
  rewrite !(lookup_insert_ne options "max_workers" "development_mode") by discriminate.
  rewrite !lookup_insert_eq.
  destruct (options !! "address") as [a|] eqn:Haddress;
    [|split; [reflexivity|discriminate]].
  destruct (options !! "development_mode") as [d|] eqn:Hdev;
    [|split; [reflexivity|discriminate]].
  unfold mbind, M_bind, mret, M_ret, asyncio_run.
  split.
  - apply run_ignores_max_workers. cbn. intros Htruthy. now apply (Hreloader d).
  - intros a' d' [= <-] [= <-]. reflexivity.
Qed.

Lemma max_workers_has_no_influence_witness :
  let env := env_with (Returns tt) (Raises CancelledError) in
  handle env no_settings linux_errno (run_restarting 1) "linux" "proj.settings"
         fresh [] (<["max_workers" := VInt 1]> dev_options) []
  = handle env no_settings linux_errno (run_restarting 1) "linux" "proj.settings"
           fresh [] (<["max_workers" := VInt 64]> dev_options) [].
Proof.
  intros env.
  exact (proj1 (max_workers_has_no_influence
                  env no_settings linux_errno (run_restarting 1)
                  "linux" "proj.settings" fresh [] dev_options
                  (VInt 1) (VInt 64) []
                  (fun _ _ _ => run_restarting_passes_kwargs_on 1))).
Defined.

(** ** The command line *)



Lemma add_arguments_declares (parser : list Argument) :
  add_arguments parser
  = parser ++ [address_argument; max_workers_argument; dev_argument].
Proof. unfold add_arguments, add_argument. now rewrite <- !List.app_assoc. Qed.














(** * Further properties of the command *)

Ltac flatten_in H := rewrite <- ?List.app_assoc in H; cbn [app] in H.

(** ** How the serve routine fails *)



(** X2. The serve routine calls [stop] for one reason only: a [stop] call
    among the events it added means that the server was serving and that
    the wait for termination was cancelled. A wait that returns, or that
    raises anything else, is followed by no [stop]. *)
Theorem stop_only_after_cancellation (env : Env) (grpc_settings : GrpcSettings)
    (self : Command) (tr : list event) :
  existsb is_stop (drop (length tr) (snd (_serve env grpc_settings self tr))) = true ->
  exists server : Server,
    serving env grpc_settings self tr server
    /\ env (tr ++ take 5 (serve_script grpc_settings self server))
           (wait_for_termination server) = Raises CancelledError
    /\ snd (_serve env grpc_settings self tr)
       = tr ++ serve_script grpc_settings self server.
Proof.
  unfold _serve. unfold_monad.
  destruct (env tr (grpc_aio_server _ _)) as [server|e1] eqn:Hnew;
    cbn [outcome_of_reply fst snd].
  2:{ rewrite drop_app_length. discriminate. }
  change (reply_type (grpc_aio_server (SERVER_OPTIONS grpc_settings)
    (SERVER_INTERCEPTORS grpc_settings))) with Server in server.
  destruct (env _ (ROOT_HANDLERS_HOOK server)) as [[]|e1] eqn:Hhook;
    cbn [outcome_of_reply fst snd].
  2:{ flatten_trace. rewrite drop_app_length. discriminate. }
  destruct (env _ (add_insecure_port server (address self))) as [[]|e1] eqn:Hport;
    cbn [outcome_of_reply fst snd].
  2:{ flatten_trace. rewrite drop_app_length. discriminate. }
  destruct (env _ (start server)) as [[]|e1] eqn:Hstart;
    cbn [outcome_of_reply fst snd].
  2:{ flatten_trace. rewrite drop_app_length. discriminate. }
  destruct (env _ (wait_for_termination server)) as [[]|e1] eqn:Hwait;
    cbn [outcome_of_reply fst snd].
  { flatten_trace. rewrite drop_app_length. discriminate. }
  flatten_in Hhook. flatten_in Hport. flatten_in Hstart. flatten_in Hwait.
  destruct e1; cbv beta iota; cbn [snd];
    try (flatten_trace; rewrite drop_app_length; discriminate).
  intros _. exists server. split; [|split].
  - repeat split; assumption.
  - exact Hwait.
  - cbn [snd]. flatten_trace. reflexivity.
Qed.

Lemma stop_only_after_cancellation_witness :
  let env := env_with (Returns tt) (Raises CancelledError) in
  exists server : Server,
    serving env no_settings plain_command [] server
    /\ env ([] ++ take 5 (serve_script no_settings plain_command server))
           (wait_for_termination server) = Raises CancelledError
    /\ snd (_serve env no_settings plain_command [])
       = [] ++ serve_script no_settings plain_command server.
Proof.
  intros env.
  exact (stop_only_after_cancellation env no_settings plain_command [] eq_refl).
Defined.

(** ** What leaves the development-mode run *)

Lemma serve_never_exits (env : Env) (grpc_settings : GrpcSettings)
    (self : Command) (tr : list event) (status : Z) :
  fst (_serve env grpc_settings self tr) <> ProcessExit status.
Proof.
  unfold _serve. unfold_monad.
  destruct (env tr (grpc_aio_server _ _)) as [server|e1];
    cbn [outcome_of_reply fst snd]; [|discriminate].
  destruct (env _ (ROOT_HANDLERS_HOOK _)) as [[]|e1];
    cbn [outcome_of_reply fst snd]; [|discriminate].
  destruct (env _ (add_insecure_port _ _)) as [[]|e1];
    cbn [outcome_of_reply fst snd]; [|discriminate].
  destruct (env _ (start _)) as [[]|e1];
    cbn [outcome_of_reply fst snd]; [|discriminate].
  destruct (env _ (wait_for_termination _)) as [[]|e1];
    cbn [outcome_of_reply fst snd]; [discriminate|].
  destruct e1; try discriminate.
  destruct (env _ (stop _ _)) as [[]|e1]; discriminate.
Qed.

(** X3. Every exception of the serve routine that is neither an [OSError]
    nor a [KeyboardInterrupt] passes through the development-mode run as
    it is, with nothing written and no exit: a [RuntimeError] of the gRPC
    runtime or a [CancelledError] raised by [stop] reaches the caller of
    [inner_run]. A serve routine that returns makes [inner_run] return. *)
Theorem other_outcomes_pass_through_inner_run
    (env : Env) (grpc_settings : GrpcSettings) (errno : Errno)
    (sys_platform SETTINGS_MODULE : string) (self : Command)
    (args : list value) (options : gmap string value) (tr : list event)
    (now version : string) (r : outcome unit) (tr' : list event) :
  started_up env tr now version ->
  _serve env grpc_settings self
         (tr ++ startup_script sys_platform SETTINGS_MODULE self now version)
  = (r, tr') ->
  (forall e_errno e_text, r <> Raised (OSError e_errno e_text)) ->
  r <> Raised KeyboardInterrupt ->
  inner_run env grpc_settings errno sys_platform SETTINGS_MODULE self args options tr
  = (r, tr').
Proof.
  intros Hup Hserve Hos Hkbd.
  rewrite (inner_run_from_serve _ _ _ _ _ _ args options tr now version Hup).
  rewrite Hserve.
  destruct r as [[]|e|status]; try reflexivity.
  destruct e as [e_errno e_text| | | | |]; try reflexivity.
  - now destruct (Hos e_errno e_text).
  - now destruct Hkbd.
Qed.

Lemma other_outcomes_pass_through_inner_run_witness :
  inner_run (env_with (Raises (Exception "RuntimeError")) (Returns tt))
            no_settings linux_errno "linux" "proj.settings" dev_command
            [] dev_options []
  = (Raised (Exception "RuntimeError"),
     startup_script "linux" "proj.settings" dev_command
                    "January 01, 2024 - 00:00:00" "4.2"
       ++ take 3 (serve_script no_settings dev_command (ServerObject 0))).
Proof.
  apply (other_outcomes_pass_through_inner_run
           (env_with (Raises (Exception "RuntimeError")) (Returns tt))
           no_settings linux_errno "linux" "proj.settings" dev_command
           [] dev_options [] "January 01, 2024 - 00:00:00" "4.2").
  - repeat split; reflexivity.
  - reflexivity.
  - discriminate.
  - discriminate.
Defined.

(** X4. Once its start-up steps have returned, the development-mode run
    never ends in an [OSError] or a [KeyboardInterrupt]: the first has
    become the exit of the process, the second [SystemExit]. The process
    exits in no other way: always with status 1, after an [OSError] of the
    serve routine, and with the error line as the last thing written. *)
Theorem inner_run_outcomes
    (env : Env) (grpc_settings : GrpcSettings) (errno : Errno)
    (sys_platform SETTINGS_MODULE : string) (self : Command)
    (args : list value) (options : gmap string value) (tr : list event)
    (now version : string) :
  let tr1 := tr ++ startup_script sys_platform SETTINGS_MODULE self now version in
  let r := inner_run env grpc_settings errno sys_platform SETTINGS_MODULE self
                     args options tr in
  started_up env tr now version ->
  match fst r with
  | Returned _ => True
  | Raised (OSError _ _) => False
  | Raised KeyboardInterrupt => False
  | Raised _ => True
  | ProcessExit status =>
      status = 1
      /\ exists e_errno e_text before,
          _serve env grpc_settings self tr1 = (Raised (OSError e_errno e_text), before)
          /\ snd r
             = before ++ [stderr_write ("Error: " +:+ error_text errno e_errno e_text)]
  end.
Proof.
  intros tr1 r Hup. subst r.
  rewrite (inner_run_from_serve _ _ _ _ _ _ args options tr now version Hup).
  fold tr1.
  pose proof (serve_never_exits env grpc_settings self tr1) as Hexit.
  destruct (_serve env grpc_settings self tr1) as [[[]|e|status] tr'] eqn:Hserve.
  - exact I.
  - destruct e as [e_errno e_text| | | | |]; cbn [fst snd]; try exact I.
    split; [reflexivity|]. now exists e_errno, e_text, tr'.
  - now destruct (Hexit status).
Qed.

Lemma inner_run_outcomes_witness :
  let env := env_with (Raises (OSError None "bind failed")) (Returns tt) in
  let r := inner_run env no_settings linux_errno "linux" "proj.settings"
                     dev_command [] dev_options [] in
  match fst r with
  | Returned _ => True
  | Raised (OSError _ _) => False
  | Raised KeyboardInterrupt => False
  | Raised _ => True
  | ProcessExit status =>
      status = 1
      /\ exists e_errno e_text before,
          _serve env no_settings dev_command
                 ([] ++ startup_script "linux" "proj.settings" dev_command
                                       "January 01, 2024 - 00:00:00" "4.2")
          = (Raised (OSError e_errno e_text), before)
          /\ snd r
             = before
                 ++ [stderr_write ("Error: " +:+ error_text linux_errno e_errno e_text)]
  end.
Proof.
  intros env.
  apply (inner_run_outcomes env no_settings linux_errno "linux" "proj.settings"
           dev_command [] dev_options [] "January 01, 2024 - 00:00:00" "4.2").
  repeat split; reflexivity.
Defined.

(** ** Failures before the server exists *)




(** ** Options that are not there *)

(** X6. [handle] reads the options by key, in the order address,
    development mode, worker count. When one of them is missing, it ends
    in the [KeyError] of the first missing key before anything has
    happened: nothing is written, no server is built and the autoreloader
    is not called. *)
Theorem handle_missing_option
    (env : Env) (grpc_settings : GrpcSettings) (errno : Errno)
    (autoreload : Autoreload) (sys_platform SETTINGS_MODULE : string)
    (self : Command) (args : list value) (options : gmap string value)
    (key : string) (tr : list event) :
  find (fun k => bool_decide (options !! k = None))
       ["address"; "development_mode"; "max_workers"] = Some key ->
  handle env grpc_settings errno autoreload sys_platform SETTINGS_MODULE
         self args options tr
  = (Raised (KeyError key), tr).
Proof.
  intros Hfirst. unfold handle, getitem. cbn [find] in Hfirst.
  destruct (options !! "address") as [a|] eqn:Haddress.
  2:{ rewrite bool_decide_eq_true_2 in Hfirst by reflexivity.
      now injection Hfirst as <-. }
  rewrite bool_decide_eq_false_2 in Hfirst by discriminate.
  destruct (options !! "development_mode") as [d|] eqn:Hdev.
  2:{ rewrite bool_decide_eq_true_2 in Hfirst by reflexivity.
      now injection Hfirst as <-. }
  rewrite bool_decide_eq_false_2 in Hfirst by discriminate.
  destruct (options !! "max_workers") as [w|] eqn:Hworkers.
  2:{ rewrite bool_decide_eq_true_2 in Hfirst by reflexivity.
      now injection Hfirst as <-. }
  rewrite bool_decide_eq_false_2 in Hfirst by discriminate.
  discriminate.
Qed.

Lemma handle_missing_option_witness :
  handle (env_with (Returns tt) (Returns tt)) no_settings linux_errno run_once
         "linux" "proj.settings" fresh [] (delete "max_workers" dev_options) []
  = (Raised (KeyError "max_workers"), []).
Proof.
  apply (handle_missing_option
           (env_with (Returns tt) (Returns tt)) no_settings linux_errno run_once
           "linux" "proj.settings" fresh [] (delete "max_workers" dev_options)
           "max_workers" []).
  vm_compute. reflexivity.
Defined.

(** ** From the command line to the mode *)



